(** * JSON API sensor: a shallow embedding of [sensor.py]

    The development models the one class of the integration,
    [JsonApiSensor], and proves the properties of its constructor and
    of its polling method [async_update].

    - JSON payloads are Python values: a scalar, a list or a dict.
    - [async_update] mutates [self], writes to the logger and talks to
      the HTTP session and the template engine.  It is embedded in a
      small state-and-exception monad whose state holds the object, the
      store of header dictionaries and the trace of outside-visible
      events (requests, log records).
    - The HTTP session, the template engine and [json.loads] are
      external collaborators: a [world] record gives their answers. *)

From stdpp Require Import base strings list gmap fin_maps pretty.
From Stdlib Require Import ZArith.

Local Open Scope Z_scope.
Local Open Scope string_scope.
Local Open Scope list_scope.

(** ** Python values *)

(** A Python float is kept through its [repr], the shortest decimal text
    that reads back as the same float; neither the sensor nor these
    proofs compute with floats. *)
Record pyfloat := PyFloat { float_repr : string }.

(** What [json.loads] yields below the containers. *)
Inductive scalar :=
| SNone
| SBool (b : bool)
| SInt (n : Z)
| SFloat (f : pyfloat)
| SStr (s : string).

(** A dict keeps its entries in insertion order, keys are strings. *)
#[warnings="-register-all"]
Inductive pyval :=
| PScalar (s : scalar)
| PList (items : list pyval)
| PDict (entries : list (string * pyval)).

Abbreviation pydict := (list (string * pyval)).

(** [str(x)] on a scalar. *)
Definition py_str (x : scalar) : string :=
  match x with
  | SNone => "None"
  | SBool true => "True"
  | SBool false => "False"
  | SInt n => pretty n
  | SFloat f => float_repr f
  | SStr s => s
  end.

(** [len(l)] of a list. *)
Definition py_len (l : list pyval) : Z := Z.of_nat (length l).

Definition is_scalar (v : pyval) : bool :=
  match v with PScalar _ => true | _ => false end.

(** Truthiness of an optional string, as tested by [if x:]: [None] and
    the empty string are falsy.  A truthy value is handed back. *)
Definition truthy (x : option string) : option string :=
  match x with
  | None => None
  | Some EmptyString => None
  | Some s => Some s
  end.

(** ** Slices of a [str] *)

(** A Python [str] is a sequence of code points; a [string] here holds
    its UTF-8 encoding, byte by byte.  Concatenation and comparison are
    the same on both; a slice is not, since a code point takes one to
    four bytes.  A byte [10xxxxxx] continues the code point that the
    byte before it belongs to; every other byte starts a new one. *)
Definition is_continuation (c : Ascii.ascii) : bool :=
  match c with
  | Ascii.Ascii _ _ _ _ _ _ b6 b7 => b7 && negb b6
  end.

(** [len(s)]: the number of code points. *)
Fixpoint codepoints (s : string) : nat :=
  match s with
  | EmptyString => 0%nat
  | String c s' =>
      if is_continuation c then codepoints s' else S (codepoints s')
  end.

(** [s[:n]]: the first [n] code points, each with all its bytes. *)
Fixpoint str_prefix (n : nat) (s : string) : string :=
  match s with
  | EmptyString => EmptyString
  | String c s' =>
      if is_continuation c then String c (str_prefix n s')
      else match n with
           | O => EmptyString
           | S n' => String c (str_prefix n' s')
           end
  end.

(** ** Exceptions *)

(** The classes that matter to the two [except] clauses.  All but
    [CancelledError] derive from [Exception]; [ClientError] stands for
    [aiohttp.ClientError] and its subclasses. *)
Inductive exn_class :=
| ClientError
| TimeoutError
| KeyError
| ValueError
| TemplateError
| CancelledError.

Record exn := Exn { exn_cls : exn_class; exn_msg : string }.

Definition isinstance_ClientError (e : exn) : bool :=
  match exn_cls e with ClientError => true | _ => false end.

Definition isinstance_Exception (e : exn) : bool :=
  match exn_cls e with CancelledError => false | _ => true end.

Inductive completion (A : Type) :=
| Normal (a : A)
| Raised (e : exn).
Arguments Normal {A} a.
Arguments Raised {A} e.

(** ** Dict operations *)

Fixpoint dict_find (k : string) (d : pydict) : option pyval :=
  match d with
  | [] => None
  | (k', v) :: d' => if String.eqb k k' then Some v else dict_find k d'
  end.

(** [k in d] *)
Fixpoint dict_contains (k : string) (d : pydict) : bool :=
  match d with
  | [] => false
  | (k', _) :: d' => String.eqb k k' || dict_contains k d'
  end.

(** [d[k]], which raises [KeyError] on a missing key. *)
Definition dict_getitem (d : pydict) (k : string) : completion pyval :=
  match dict_find k d with
  | Some v => Normal v
  | None => Raised (Exn KeyError ("'" +:+ k +:+ "'"))
  end.

(** ** The object, the store and the trace *)

Definition loc := nat.

(** Header dictionaries are mutable and shared by reference. *)
Abbreviation store := (gmap loc (gmap string string)).

Record sensor := Sensor {
  _name : string;
  _url : string;
  _authorization : option string;
  _headers : loc;
  _state : pyval;
  _attributes : pydict;
  _available : bool;
  _scan_interval : Z;
  _attributes_template : option string
}.

Definition set_state (v : pyval) (s : sensor) : sensor :=
  Sensor (_name s) (_url s) (_authorization s) (_headers s) v
         (_attributes s) (_available s) (_scan_interval s)
         (_attributes_template s).

Definition set_attributes (a : pydict) (s : sensor) : sensor :=
  Sensor (_name s) (_url s) (_authorization s) (_headers s) (_state s)
         a (_available s) (_scan_interval s) (_attributes_template s).

Definition set_available (b : bool) (s : sensor) : sensor :=
  Sensor (_name s) (_url s) (_authorization s) (_headers s) (_state s)
         (_attributes s) b (_scan_interval s) (_attributes_template s).

Inductive level := DEBUG | ERROR.

Inductive event :=
| EvGet (url : string) (headers : gmap string string)
| EvLog (lvl : level) (msg : string).

Record machine := Machine {
  m_self : sensor;
  m_store : store;
  m_trace : list event
}.

Definition with_self (f : sensor → sensor) (m : machine) : machine :=
  Machine (f (m_self m)) (m_store m) (m_trace m).

Definition emit (ev : event) (m : machine) : machine :=
  Machine (m_self m) (m_store m) (m_trace m ++ [ev]).

(** ** External collaborators *)

Record response := Response {
  status : Z;
  json : completion pyval  (* what [await response.json()] gives *)
}.

Record world := World {
  (* [await session.get(url, headers=...)] under the 10 s timeout *)
  session_get : string → gmap string string → completion response;
  (* [str(Template(rule, hass).async_render({'value_json': data}))] *)
  template_render : string → pyval → completion string;
  json_loads : string → completion pyval
}.

(** ** The monad *)

Definition M (A : Type) : Type := machine → completion A * machine.

Definition ret {A} (a : A) : M A := λ m, (Normal a, m).

Definition bind {A B} (c : M A) (k : A → M B) : M B :=
  λ m, match c m with
       | (Normal a, m') => k a m'
       | (Raised e, m') => (Raised e, m')
       end.

Declare Scope py_scope.
Delimit Scope py_scope with py.
Notation "x <- c ;; k" := (bind c (λ x, k))
  (at level 100, c at next level, right associativity) : py_scope.
Notation "c ;; k" := (bind c (λ _, k))
  (at level 100, right associativity) : py_scope.
Local Open Scope py_scope.

Definition raise {A} (e : exn) : M A := λ m, (Raised e, m).

(** Run the answer of a collaborator or of a partial primitive. *)
Definition call {A} (r : completion A) : M A :=
  match r with
  | Normal a => ret a
  | Raised e => raise e
  end.

Definition self : M sensor := λ m, (Normal (m_self m), m).

Definition assign (f : sensor → sensor) : M unit :=
  λ m, (Normal tt, with_self f m).

Definition log (lvl : level) (msg : string) : M unit :=
  λ m, (Normal tt, emit (EvLog lvl msg) m).

(** Reading a header dictionary through its reference. *)
Definition deref (l : loc) : M (gmap string string) :=
  λ m, (Normal (m_store m !!! l), m).

Definition http_get (w : world) (url : string) (hs : gmap string string)
  : M response :=
  λ m, call (session_get w url hs) (emit (EvGet url hs) m).

(** [try: body except C1 as err: h1 except C2 as err: h2]: the first
    clause whose class test accepts the exception runs; with none, the
    exception goes on. *)
Definition clause (A : Type) : Type := (exn → bool) * (exn → M A).

Fixpoint dispatch {A} (cs : list (clause A)) (e : exn) : M A :=
  match cs with
  | [] => raise e
  | (test, h) :: cs' => if test e then h e else dispatch cs' e
  end.

Definition try_except {A} (body : M A) (cs : list (clause A)) : M A :=
  λ m, match body m with
       | (Normal a, m') => (Normal a, m')
       | (Raised e, m') => dispatch cs e m'
       end.

(** ** [JsonApiSensor.__init__] *)

(** [d.copy()]: a new dictionary with the same entries. *)
Definition dict_copy (l : loc) (h : store) : loc * store :=
  let l' := fresh (dom h) in (l', <[l' := h !!! l]> h).

(** [d[k] = v] on the dictionary at [l]. *)
Definition dict_setitem (l : loc) (k v : string) (h : store) : store :=
  alter (insert k v) l h.

Definition __init__ (name url : string) (authorization : option string)
    (headers : loc) (scan_interval : Z) (attributes_template : option string)
    (h : store) : sensor * store :=
  let '(copied, h) := dict_copy headers h in
  let this :=
    {| _name := name;
       _url := url;
       _authorization := authorization;
       _headers := copied;
       _state := PScalar SNone;
       _attributes := [];
       _available := true;
       _scan_interval := scan_interval;
       _attributes_template := attributes_template |} in
  match truthy (_authorization this) with
  | Some a => (this, dict_setitem (_headers this) "Authorization" a h)
  | None => (this, h)
  end.

(** ** [JsonApiSensor.async_update] *)

(** Lines 123-136: the rendered template output. *)
Definition handle_processed (processed_data : pyval) : M unit :=
  match processed_data with
  | PList items =>
      assign (set_state (PScalar (SInt (py_len items))));;
      assign (set_attributes [("items", processed_data)])
  | PDict d =>
      (if dict_contains "count" d then
         v <- call (dict_getitem d "count");;
         assign (set_state v)
       else if dict_contains "total" d then
         v <- call (dict_getitem d "total");;
         assign (set_state v)
       else
         assign (set_state (PScalar (SStr "OK"))));;
      assign (set_attributes d)
  | PScalar x =>
      assign (set_state (PScalar (SStr (py_str x))));;
      assign (set_attributes [("raw", processed_data)])
  end.

(** Lines 140-153: the raw value after a failed render. *)
Definition handle_fallback (data : pyval) : M unit :=
  match data with
  | PList items =>
      assign (set_state (PScalar (SInt (py_len items))));;
      assign (set_attributes [("items", data)])
  | PDict d =>
      (if dict_contains "count" d then
         v <- call (dict_getitem d "count");;
         assign (set_state v)
       else if dict_contains "total" d then
         v <- call (dict_getitem d "total");;
         assign (set_state v)
       else
         assign (set_state (PScalar (SStr "OK"))));;
      assign (set_attributes d)
  | PScalar x =>
      assign (set_state (PScalar (SStr (py_str x))));;
      assign (set_attributes [("raw", data)])
  end.

(** Lines 156-169: the raw value when no template is configured. *)
Definition handle_default (data : pyval) : M unit :=
  match data with
  | PList items =>
      assign (set_state (PScalar (SInt (py_len items))));;
      assign (set_attributes [("items", data)])
  | PDict d =>
      (if dict_contains "count" d then
         v <- call (dict_getitem d "count");;
         assign (set_state v)
       else if dict_contains "total" d then
         v <- call (dict_getitem d "total");;
         assign (set_state v)
       else
         assign (set_state (PScalar (SStr "OK"))));;
      assign (set_attributes d)
  | PScalar x =>
      assign (set_state (PScalar (SStr (py_str x))));;
      assign (set_attributes [("raw", data)])
  end.

(** Lines 108-153: the template branch with its own [try]. *)
Definition apply_template (w : world) (rule : string) (data : pyval) : M unit :=
  try_except
    (log DEBUG "Applying attributes_template to data";;
     rendered_str <- call (template_render w rule data);;
     log DEBUG ("Template rendered: " +:+ str_prefix 200 rendered_str);;
     processed_data <- call (json_loads w rendered_str);;
     log DEBUG "Template processing successful";;
     handle_processed processed_data)
    [(isinstance_Exception, λ err,
        log ERROR ("Error processing attributes_template: " +:+ exn_msg err);;
        handle_fallback data)].

Definition async_update (w : world) : M unit :=
  try_except
    (this <- self;;
     hs <- deref (_headers this);;
     resp <- http_get w (_url this) hs;;
     if (status resp =? 200)%Z then
       data <- call (json resp);;
       (match truthy (_attributes_template this) with
        | Some rule => apply_template w rule data
        | None => handle_default data
        end);;
       assign (set_available true);;
       log DEBUG ("Successfully fetched data from " +:+ _url this)
     else
       log ERROR ("Error fetching data: HTTP " +:+ pretty (status resp));;
       assign (set_available false))
    [(isinstance_ClientError, λ err,
        this <- self;;
        log ERROR ("Error fetching data from " +:+ _url this +:+ ": "
                   +:+ exn_msg err);;
        assign (set_available false));
     (isinstance_Exception, λ err,
        log ERROR ("Unexpected error: " +:+ exn_msg err);;
        assign (set_available false))].

(** ** Specification-level notions *)

(** The Normalizer of the specification (section 4.3), written from its
    words: a pure function from a JSON value to the pair of the primary
    value and the attribute mapping. *)
Definition normalize_spec (value : pyval) : pyval * pydict :=
  match value with
  | PList items => (PScalar (SInt (Z.of_nat (length items))), [("items", value)])
  | PDict d =>
      (match dict_find "count" d with
       | Some v => v
       | None =>
           match dict_find "total" d with
           | Some v => v
           | None => PScalar (SStr "OK")
           end
       end, d)
  | PScalar x => (PScalar (SStr (py_str x)), [("raw", value)])
  end.

(** Committing a (primary value, attributes) pair to the object. *)
Definition commit (r : pyval * pydict) (m : machine) : machine :=
  with_self (λ s, set_attributes r.2 (set_state r.1 s)) m.

(** The primary value an object is expected to get: the value under
    ["count"]; without that key the value under ["total"]; without both
    the string ["OK"]. *)
Inductive object_primary (d : pydict) : pyval → Prop :=
| primary_count v :
    dict_getitem d "count" = Normal v → object_primary d v
| primary_total v :
    dict_contains "count" d = false →
    dict_getitem d "total" = Normal v → object_primary d v
| primary_ok :
    dict_contains "count" d = false →
    dict_contains "total" d = false →
    object_primary d (PScalar (SStr "OK")).

(** The fetch-layer failures of one poll cycle. *)
Inductive fetch_failure : completion response → Prop :=
| HttpError resp :
    status resp ≠ 200 → fetch_failure (Normal resp)
| TransportError e :
    (* [session.get] raised: a client error, the timeout, ... *)
    isinstance_Exception e = true → fetch_failure (Raised e)
| ParseFailure resp e :
    (* [response.json()] raised on a 200 answer *)
    status resp = 200 → json resp = Raised e →
    isinstance_Exception e = true → fetch_failure (Normal resp).

(** The two ways a render rule fails: while it is evaluated, or when its
    text is parsed back.  The second index is the rendered text, if any. *)
Inductive render_failure (w : world) (rule : string) (data : pyval)
  : exn → option string → Prop :=
| EvaluationFailure e :
    template_render w rule data = Raised e →
    render_failure w rule data e None
| ReparseFailure text e :
    template_render w rule data = Normal text →
    json_loads w text = Raised e →
    render_failure w rule data e (Some text).

(** The GET requests of a trace, in order. *)
Definition requests (tr : list event) : list (string * gmap string string) :=
  omap (λ ev, match ev with
              | EvGet url hs => Some (url, hs)
              | EvLog _ _ => None
              end) tr.

(** The log records of a trace, in order. *)
Definition log_records (tr : list event) : list (level * string) :=
  omap (λ ev, match ev with
              | EvGet _ _ => None
              | EvLog lvl msg => Some (lvl, msg)
              end) tr.

(** The request one poll of the machine [m] is about to send. *)
Definition request_of (m : machine) : event :=
  EvGet (_url (m_self m)) (m_store m !!! _headers (m_self m)).

(** ** Sample inputs *)

(** A caller's store with one header dictionary, at location 0. *)
Definition sample_store : store :=
  {[ 0%nat := {[ "Authorization" := "foo" ]} ]}.

Definition sample_machine : machine :=
  let r := __init__ "JSON API Sensor" "http://api.test/items"
             (Some "Bearer xyz") 0%nat 300 None sample_store in
  Machine r.1 r.2 [].

(** The same sensor with a render rule configured. *)
Definition sample_machine_tpl : machine :=
  let r := __init__ "JSON API Sensor" "http://api.test/items"
             (Some "Bearer xyz") 0%nat 300 (Some "{{ value_json.rows }}")
             sample_store in
  Machine r.1 r.2 [].

Definition sample_object : pyval :=
  PDict [("total", PScalar (SInt 17)); ("region", PScalar (SStr "eu"))].

(** An endpoint that answers 200 with [sample_object]; the template
    engine rejects every rule and [json.loads] every text. *)
Definition world_render_fails : world :=
  World (λ _ _, Normal (Response 200 (Normal sample_object)))
        (λ _ _, Raised (Exn TemplateError "UndefinedError: no attribute rows"))
        (λ _, Raised (Exn ValueError "Expecting value: line 1 column 1 (char 0)")).

(** An endpoint that answers 500. *)
Definition world_http_500 : world :=
  World (λ _ _, Normal (Response 500 (Normal (PScalar SNone))))
        (λ _ _, Raised (Exn TemplateError "unused"))
        (λ _, Raised (Exn ValueError "unused")).

(** A sensor that is down after an earlier failure, and still shows
    the payload of the cycle before it. *)
Definition stale_sensor (attributes_template : option string) : sensor :=
  {| _name := "JSON API Sensor";
     _url := "http://api.test/items";
     _authorization := None;
     _headers := 0%nat;
     _state := PScalar (SInt 4);
     _attributes := [("count", PScalar (SInt 4))];
     _available := false;
     _scan_interval := 300;
     _attributes_template := attributes_template |}.

Definition down_machine : machine :=
  Machine (stale_sensor None) sample_store [].

Definition down_machine_empty_rule : machine :=
  Machine (stale_sensor (Some "")) sample_store [].

Definition down_machine_tpl : machine :=
  Machine (stale_sensor (Some "{{ value_json.rows }}")) sample_store [].

(** An available sensor that shows the payload of its last cycle. *)
Definition up_machine : machine :=
  Machine (Sensor "JSON API Sensor" "http://api.test/items" None 0%nat
             (PScalar (SInt 4)) [("count", PScalar (SInt 4))] true 300
             (Some "{{ value_json.rows }}"))
          sample_store [].

(** ** The properties read by the host (lines 74-92) *)

Definition name (s : sensor) : string := _name s.

Definition state (s : sensor) : pyval := _state s.

Definition extra_state_attributes (s : sensor) : pydict := _attributes s.

Definition available (s : sensor) : bool := _available s.

(** ** [async_setup_platform] (lines 38-50) *)

(** The platform configuration after validation by [PLATFORM_SCHEMA]:
    one optional entry per key, of the type the schema gives it.  The
    header mapping is a dictionary, held by reference; a time period is
    counted in seconds. *)
Record config := Config {
  conf_name : option string;
  conf_url : option string;
  conf_authorization : option string;
  conf_headers : option loc;
  conf_scan_interval : option Z;
  conf_attributes_template : option string
}.

(** [timedelta(minutes=5)] *)
Definition DEFAULT_SCAN_INTERVAL : Z := 5 * 60.

(** The dict display [{}]: a new, empty dictionary. *)
Definition dict_new (h : store) : loc * store :=
  let l := fresh (dom h) in (l, <[l := ∅]> h).

(** What the set-up has done to the host: the store, and the calls of
    [async_add_entities] with their [update_before_add] flag. *)
Record platform := Platform {
  p_store : store;
  p_added : list (list sensor * bool)
}.

(** [CONF_NAME] and [CONF_URL] come from [homeassistant.const]; they
    are taken as parameters and show in the [KeyError] messages. *)
Definition async_setup_platform (CONF_NAME CONF_URL : string)
    (cfg : config) (p : platform) : completion unit * platform :=
  match conf_name cfg with
  | None => (Raised (Exn KeyError ("'" +:+ CONF_NAME +:+ "'")), p)
  | Some name =>
      match conf_url cfg with
      | None => (Raised (Exn KeyError ("'" +:+ CONF_URL +:+ "'")), p)
      | Some url =>
          let authorization := conf_authorization cfg in
          let '(empty, h) := dict_new (p_store p) in
          let headers := default empty (conf_headers cfg) in
          let scan_interval :=
            default DEFAULT_SCAN_INTERVAL (conf_scan_interval cfg) in
          let attributes_template := conf_attributes_template cfg in
          let '(sensor, h) :=
            __init__ name url authorization headers scan_interval
                     attributes_template h in
          (Normal tt, Platform h (p_added p ++ [([sensor], true)]))
      end
  end.

(** ** Notions for sequences of polls *)

(** The host calls [async_update] once per interval; [polls] runs one
    poll per given world, in order. *)
Fixpoint polls (ws : list world) (m : machine) : machine :=
  match ws with
  | [] => m
  | w :: ws' => polls ws' (async_update w m).2
  end.

(** The fetch of a poll succeeded: a 200 answer whose body is JSON. *)
Definition fetched (r : completion response) : bool :=
  match r with
  | Normal resp =>
      (status resp =? 200)%Z
      && match json resp with Normal _ => true | Raised _ => false end
  | Raised _ => false
  end.

(** State and attributes belong together: they are the initial pair or
    the normalization of one JSON value. *)
Definition coherent (s : sensor) : Prop :=
  (state s, extra_state_attributes s) = (PScalar SNone, [])
  ∨ ∃ v, (state s, extra_state_attributes s) = normalize_spec v.

Definition set_scan_interval (z : Z) (s : sensor) : sensor :=
  Sensor (_name s) (_url s) (_authorization s) (_headers s) (_state s)
         (_attributes s) (_available s) z (_attributes_template s).

(** The settings of a sensor, fixed by the constructor. *)
Definition settings (s : sensor)
  : string * string * option string * loc * Z * option string :=
  (_name s, _url s, _authorization s, _headers s, _scan_interval s,
   _attributes_template s).

(** An endpoint that answers 200 with [sample_object]; the template
    engine and [json.loads] succeed. *)
Definition world_ok : world :=
  World (λ _ _, Normal (Response 200 (Normal sample_object)))
        (λ _ _, Normal "[1, 2, 3]")
        (λ _, Normal (PList [PScalar (SInt 1); PScalar (SInt 2);
                             PScalar (SInt 3)])).

(** An endpoint whose request is cancelled from outside. *)
Definition world_cancelled : world :=
  World (λ _ _, Raised (Exn CancelledError ""))
        (λ _ _, Normal "[]") (λ _, Normal (PList [])).

(** An endpoint that does not answer within the ten seconds;
    [str(asyncio.TimeoutError())] is empty. *)
Definition world_timeout : world :=
  World (λ _ _, Raised (Exn TimeoutError ""))
        (λ _ _, Normal "[]") (λ _, Normal (PList [])).

(** [n] euro signs; one sign is one code point in three bytes. *)
Fixpoint euros (n : nat) : string :=
  match n with
  | O => ""
  | S n' => "€" +:+ euros n'
  end.

(** An endpoint whose template renders to 250 euro signs, which is not
    JSON. *)
Definition world_euro : world :=
  World (λ _ _, Normal (Response 200 (Normal sample_object)))
        (λ _ _, Normal (euros 250))
        (λ _, Raised (Exn ValueError "Expecting value: line 1 column 1 (char 0)")).

(** An endpoint that cannot be reached. *)
Definition world_refused : world :=
  World (λ _ _, Raised (Exn ClientError "Cannot connect to host"))
        (λ _ _, Normal "[]") (λ _, Normal (PList [])).

(** A world whose collaborators raise nothing but errors derived from
    [Exception]. *)
Definition raises_only_Exception (w : world) : Prop :=
  (∀ url hs e,
     session_get w url hs = Raised e → isinstance_Exception e = true)
  ∧ (∀ url hs resp e,
       session_get w url hs = Normal resp → json resp = Raised e →
       isinstance_Exception e = true)
  ∧ (∀ rule data e,
       template_render w rule data = Raised e →
       isinstance_Exception e = true)
  ∧ (∀ text e,
       json_loads w text = Raised e → isinstance_Exception e = true).

(** The headers a sensor sends: the configured ones, with the
    [Authorization] entry when the authorization value is truthy. *)
Definition merged (authorization : option string) (hd : gmap string string)
  : gmap string string :=
  match truthy authorization with
  | Some a => <["Authorization" := a]> hd
  | None => hd
  end.

(** * Proofs *)

(** ** Dicts *)

Lemma dict_contains_find k d :
  dict_contains k d = bool_decide (is_Some (dict_find k d)).
Proof.
  induction d as [|[k' v] d IH]; cbn; [done|].
  by destruct (String.eqb k k').
Qed.

Lemma dict_contains_false k d :
  dict_contains k d = false ↔ dict_find k d = None.
Proof.
  rewrite dict_contains_find, bool_decide_eq_false, <- eq_None_not_Some.
  done.
Qed.

Lemma dict_getitem_Normal d k v :
  dict_getitem d k = Normal v ↔ dict_find k d = Some v.
Proof.
  unfold dict_getitem. destruct (dict_find k d); split; congruence.
Qed.

(** After a positive membership test the subscript cannot raise. *)
Lemma dict_getitem_contains d k :
  dict_contains k d = true → ∃ v, dict_getitem d k = Normal v.
Proof.
  rewrite dict_contains_find, bool_decide_eq_true.
  intros [v Hv]. exists v. by apply dict_getitem_Normal.
Qed.

Lemma object_primary_spec d p :
  object_primary d p → (normalize_spec (PDict d)).1 = p.
Proof.
  destruct 1 as [v Hc|v Hc Ht|Hc Ht]; cbn.
  - apply dict_getitem_Normal in Hc. by rewrite Hc.
  - apply dict_contains_false in Hc. apply dict_getitem_Normal in Ht.
    by rewrite Hc, Ht.
  - apply dict_contains_false in Hc, Ht. by rewrite Hc, Ht.
Qed.

(** ** The three copies of the normalization *)

Ltac unfold_monad :=
  unfold http_get, try_except, bind, call, ret, raise, self, assign, log,
    deref.

Lemma object_branch_commit d m :
  ((if dict_contains "count" d then
      v <- call (dict_getitem d "count");; assign (set_state v)
    else if dict_contains "total" d then
      v <- call (dict_getitem d "total");; assign (set_state v)
    else assign (set_state (PScalar (SStr "OK"))));;
   assign (set_attributes d)) m
  = (Normal tt, commit (normalize_spec (PDict d)) m).
Proof.
  unfold_monad. unfold dict_getitem. rewrite !dict_contains_find. cbn.
  destruct (dict_find "count" d) as [c|]; cbn; [done|].
  destruct (dict_find "total" d) as [t|]; cbn; done.
Qed.

Lemma handle_default_commit data m :
  handle_default data m = (Normal tt, commit (normalize_spec data) m).
Proof.
  destruct data as [x|items|d]; [done|done|]. apply object_branch_commit.
Qed.

Lemma handle_fallback_commit data m :
  handle_fallback data m = (Normal tt, commit (normalize_spec data) m).
Proof.
  destruct data as [x|items|d]; [done|done|]. apply object_branch_commit.
Qed.

Lemma handle_processed_commit data m :
  handle_processed data m = (Normal tt, commit (normalize_spec data) m).
Proof.
  destruct data as [x|items|d]; [done|done|]. apply object_branch_commit.
Qed.

(** ** Normalization *)

(** C1. For a JSON object the primary value follows the precedence
    ["count"], then ["total"], then the literal ["OK"], whatever else
    the object holds, and the attribute mapping is the object itself,
    with the same keys and values in the same order: after the
    normalization the state of the sensor is that value and its
    attributes are that object. *)
Theorem object_precedence (d : pydict) (p : pyval) (m : machine) :
  object_primary d p →
  ∃ m',
    handle_default (PDict d) m = (Normal tt, m')
    ∧ _state (m_self m') = p
    ∧ _attributes (m_self m') = d.
Proof.
  intros Hp. rewrite handle_default_commit. eexists. split; [done|].
  split; [|done]. by rewrite <- (object_primary_spec d p Hp).
Qed.

Lemma object_precedence_witness :
  (* "count" wins over "total", also when it comes second *)
  (∃ m',
     handle_default
       (PDict [("total", PScalar (SInt 17)); ("count", PScalar (SInt 3))])
       down_machine
     = (Normal tt, m')
     ∧ _state (m_self m') = PScalar (SInt 3)
     ∧ _attributes (m_self m')
       = [("total", PScalar (SInt 17)); ("count", PScalar (SInt 3))])
  (* "total" alone *)
  ∧ (∃ m',
       handle_default sample_object down_machine = (Normal tt, m')
       ∧ _state (m_self m') = PScalar (SInt 17)
       ∧ _attributes (m_self m')
         = [("total", PScalar (SInt 17)); ("region", PScalar (SStr "eu"))])
  (* neither key *)
  ∧ (∃ m',
       handle_default (PDict [("region", PScalar (SStr "eu"))]) down_machine
       = (Normal tt, m')
       ∧ _state (m_self m') = PScalar (SStr "OK")
       ∧ _attributes (m_self m') = [("region", PScalar (SStr "eu"))]).
Proof.
  split; [|split].
  - apply object_precedence. apply primary_count. reflexivity.
  - apply object_precedence. apply primary_total; reflexivity.
  - apply object_precedence. apply primary_ok; reflexivity.
Defined.

(** C2. For a JSON array the primary value is the integer length of the
    array and the attribute mapping is [{"items": A}], [A] unchanged:
    after the normalization the state of the sensor is that integer and
    its attributes are that one-entry mapping. *)
Theorem array_length_items (A : list pyval) (m : machine) :
  ∃ m',
    handle_default (PList A) m = (Normal tt, m')
    ∧ _state (m_self m') = PScalar (SInt (Z.of_nat (length A)))
    ∧ _attributes (m_self m') = [("items", PList A)].
Proof. rewrite handle_default_commit. by eexists. Qed.

Lemma array_length_items_witness :
  let A := [PScalar (SStr "a"); PScalar (SStr "b"); PScalar (SStr "c")] in
  (∃ m',
     handle_default (PList A) down_machine = (Normal tt, m')
     ∧ _state (m_self m') = PScalar (SInt 3)
     ∧ _attributes (m_self m') = [("items", PList A)])
  ∧ (∃ m',
       handle_default (PList []) down_machine = (Normal tt, m')
       ∧ _state (m_self m') = PScalar (SInt 0)
       ∧ _attributes (m_self m') = [("items", PList [])]).
Proof.
  intros A. split.
  - apply (array_length_items A down_machine).
  - apply (array_length_items [] down_machine).
Defined.

(** C3. For a scalar (number, string, boolean or null) the primary value
    is the string [str(s)] and the attribute mapping is [{"raw": s}],
    the scalar unchanged.  The string is Python's: a string is itself,
    [None] gives ["None"], the booleans ["True"] and ["False"], an
    integer its decimal numeral with a leading minus sign when
    negative, a float its [repr]. *)
Theorem scalar_str_raw (x : scalar) (m : machine) :
  ∃ m',
    handle_default (PScalar x) m = (Normal tt, m')
    ∧ _state (m_self m')
      = PScalar (SStr match x with
                      | SNone => "None"
                      | SBool true => "True"
                      | SBool false => "False"
                      | SInt n => pretty n
                      | SFloat f => float_repr f
                      | SStr s => s
                      end)
    ∧ _attributes (m_self m') = [("raw", PScalar x)].
Proof.
  rewrite handle_default_commit. eexists. split; [done|].
  by destruct x as [|[]| | |].
Qed.

Lemma scalar_str_raw_witness :
  let reads (x : scalar) (text : string) :=
    ∃ m',
      handle_default (PScalar x) down_machine = (Normal tt, m')
      ∧ _state (m_self m') = PScalar (SStr text)
      ∧ _attributes (m_self m') = [("raw", PScalar x)] in
  reads (SStr "hello") "hello"
  ∧ reads (SInt 17) "17"
  ∧ reads (SInt (-4)) "-4"
  ∧ reads (SInt 0) "0"
  ∧ reads (SBool true) "True"
  ∧ reads (SBool false) "False"
  ∧ reads SNone "None"
  ∧ reads (SFloat (PyFloat "1.5")) "1.5".
Proof.
  intros reads. repeat split.
  - apply (scalar_str_raw (SStr "hello") down_machine).
  - apply (scalar_str_raw (SInt 17) down_machine).
  - apply (scalar_str_raw (SInt (-4)) down_machine).
  - apply (scalar_str_raw (SInt 0) down_machine).
  - apply (scalar_str_raw (SBool true) down_machine).
  - apply (scalar_str_raw (SBool false) down_machine).
  - apply (scalar_str_raw SNone down_machine).
  - apply (scalar_str_raw (SFloat (PyFloat "1.5")) down_machine).
Defined.

(** The string forms are Python's, not JSON's. *)
Example str_of_scalars :
  py_str (SStr "hello") = "hello" ∧ py_str (SInt 17) = "17"
  ∧ py_str (SInt (-4)) = "-4" ∧ py_str (SBool true) = "True"
  ∧ py_str SNone = "None" ∧ py_str (SFloat (PyFloat "1.5")) = "1.5".
Proof. repeat split. Qed.

(** C7. The three copies of the normalization, on the rendered output,
    on the raw value after a failed render and on the raw value without
    a template, all compute the one [normalize_spec] and commit its
    result; so they agree on every JSON value. *)
Theorem three_call_sites_agree (data : pyval) (m : machine) :
  handle_processed data m = (Normal tt, commit (normalize_spec data) m)
  ∧ handle_fallback data m = (Normal tt, commit (normalize_spec data) m)
  ∧ handle_default data m = (Normal tt, commit (normalize_spec data) m).
Proof.
  split; [|split].
  - apply handle_processed_commit.
  - apply handle_fallback_commit.
  - apply handle_default_commit.
Qed.

(** C8. The normalization is total and depends on its input only: for
    every JSON value there is one (primary value, attributes) pair that
    each copy commits, from whatever state it starts, never raising;
    and a value that is neither a list nor a dict takes the scalar
    branch. *)
Theorem normalization_total (data : pyval) :
  ∃ r : pyval * pydict,
    (∀ m, handle_default data m = (Normal tt, commit r m))
    ∧ (∀ m, handle_fallback data m = (Normal tt, commit r m))
    ∧ (∀ m, handle_processed data m = (Normal tt, commit r m))
    ∧ ((∀ items, data ≠ PList items) → (∀ d, data ≠ PDict d) →
       ∃ x, data = PScalar x
            ∧ r = (PScalar (SStr (py_str x)), [("raw", data)])).
Proof.
  exists (normalize_spec data). repeat split.
  - intros m. apply handle_default_commit.
  - intros m. apply handle_fallback_commit.
  - intros m. apply handle_processed_commit.
  - intros Hl Hd. destruct data as [x|items|d].
    + by exists x.
    + by destruct (Hl items).
    + by destruct (Hd d).
Qed.

(** C10. When the value under ["count"] (or, without that key, under
    ["total"]) is not a scalar, it becomes the primary value as it is:
    the primary value is then a list or a dict.  This holds on the raw
    value and on the rendered template output alike. *)
Theorem nonscalar_primary_verbatim (d : pydict) (v : pyval) (m : machine) :
  object_primary d v → is_scalar v = false →
  (∃ m', handle_default (PDict d) m = (Normal tt, m')
         ∧ _state (m_self m') = v
         ∧ is_scalar (_state (m_self m')) = false)
  ∧ (∃ m', handle_processed (PDict d) m = (Normal tt, m')
           ∧ _state (m_self m') = v
           ∧ is_scalar (_state (m_self m')) = false).
Proof.
  intros Hp Hv.
  rewrite handle_default_commit, handle_processed_commit.
  rewrite <- (object_primary_spec d v Hp) in Hv |- *.
  split; eexists; (split; [reflexivity|]); by cbn.
Qed.

Lemma nonscalar_primary_verbatim_witness :
  let rows := PList [PScalar (SInt 1); PScalar (SInt 2)] in
  let d := [("count", rows); ("total", PScalar (SInt 2))] in
  (∃ m', handle_default (PDict d) sample_machine = (Normal tt, m')
         ∧ _state (m_self m') = rows
         ∧ is_scalar (_state (m_self m')) = false)
  ∧ (∃ m', handle_processed (PDict d) sample_machine = (Normal tt, m')
           ∧ _state (m_self m') = rows
           ∧ is_scalar (_state (m_self m')) = false).
Proof.
  intros rows d. apply nonscalar_primary_verbatim.
  - apply primary_count. reflexivity.
  - reflexivity.
Defined.

(** ** The constructor *)

Section init.
Context (name url : string) (authorization : option string) (headers : loc).
Context (scan_interval : Z) (attributes_template : option string).
Context (h : store).

Let r := __init__ name url authorization headers scan_interval
           attributes_template h.

Lemma init_headers_fresh : _headers r.1 = fresh (dom h).
Proof.
  subst r. unfold __init__, dict_copy. cbn.
  by destruct (truthy authorization).
Qed.

Lemma init_headers_not_allocated : h !! _headers r.1 = None.
Proof.
  rewrite init_headers_fresh. apply not_elem_of_dom, is_fresh.
Qed.

(** The dictionaries that existed before are left as they were. *)
Lemma init_frame l : is_Some (h !! l) → r.2 !! l = h !! l.
Proof.
  intros Hl.
  assert (fresh (dom h) ≠ l) as Hne.
  { intros <-. apply (is_fresh (dom h)). by apply elem_of_dom. }
  subst r. unfold __init__, dict_copy, dict_setitem. cbn.
  destruct (truthy authorization); cbn.
  - by rewrite lookup_alter_ne, lookup_insert_ne.
  - by rewrite lookup_insert_ne.
Qed.

(** The sensor's own dictionary: the copy, with the [Authorization]
    entry when the authorization value is truthy. *)
Lemma init_own_headers :
  r.2 !! _headers r.1
  = Some (match truthy authorization with
          | Some a => <["Authorization" := a]> (h !!! headers)
          | None => h !!! headers
          end).
Proof.
  subst r. unfold __init__, dict_copy, dict_setitem. cbn.
  destruct (truthy authorization); cbn.
  - by rewrite lookup_alter_eq, lookup_insert_eq.
  - by rewrite lookup_insert_eq.
Qed.

Lemma init_fields :
  _url r.1 = url ∧ _state r.1 = PScalar SNone ∧ _attributes r.1 = []
  ∧ _available r.1 = true
  ∧ _attributes_template r.1 = attributes_template.
Proof. subst r. unfold __init__, dict_copy. cbn. by destruct (truthy _). Qed.
End init.

(** C9. The constructor does not touch the caller's header dictionary:
    the sensor keeps a copy at a new location, and the [Authorization]
    entry goes into that copy. *)
Theorem init_keeps_caller_headers (name url : string)
    (authorization : option string) (headers : loc) (scan_interval : Z)
    (attributes_template : option string) (h : store)
    (hd : gmap string string) :
  h !! headers = Some hd →
  let r := __init__ name url authorization headers scan_interval
             attributes_template h in
  r.2 !! headers = Some hd
  ∧ _headers r.1 ≠ headers
  ∧ r.2 !! _headers r.1
    = Some (match truthy authorization with
            | Some a => <["Authorization" := a]> hd
            | None => hd
            end).
Proof.
  intros Hhd r. subst r. split; [|split].
  - rewrite init_frame; [done|by eexists].
  - intros Heq.
    pose proof (init_headers_not_allocated name url authorization headers
                  scan_interval attributes_template h) as Hnone.
    rewrite Heq in Hnone. congruence.
  - rewrite init_own_headers. by rewrite (lookup_total_correct _ _ _ Hhd).
Qed.

Lemma init_keeps_caller_headers_witness :
  let r := __init__ "JSON API Sensor" "http://api.test/items"
             (Some "Bearer xyz") 0%nat 300 None sample_store in
  r.2 !! 0%nat = Some {[ "Authorization" := "foo" ]}
  ∧ _headers r.1 ≠ 0%nat
  ∧ r.2 !! _headers r.1
    = Some (<["Authorization" := "Bearer xyz"]> {[ "Authorization" := "foo" ]}).
Proof.
  apply (init_keeps_caller_headers "JSON API Sensor" "http://api.test/items"
           (Some "Bearer xyz") 0%nat 300 None sample_store
           {[ "Authorization" := "foo" ]}).
  reflexivity.
Defined.

(** ** The poll cycle *)

Local Arguments handle_default : simpl never.
Local Arguments handle_fallback : simpl never.
Local Arguments handle_processed : simpl never.

Lemma requests_app tr1 tr2 :
  requests (tr1 ++ tr2) = requests tr1 ++ requests tr2.
Proof. apply omap_app. Qed.

(** Case analysis on the answers of the collaborators, innermost
    scrutinee first. *)
Ltac case_answer :=
  match goal with
  | |- context [match ?x with _ => _ end] =>
      lazymatch x with
      | context [match _ with _ => _ end] => fail
      | _ => destruct x eqn:?
      end
  end.

Ltac step_poll :=
  first
    [ rewrite handle_processed_commit
    | rewrite handle_fallback_commit
    | rewrite handle_default_commit
    | case_answer ];
  cbn.

(** One poll sends exactly one GET request, to the configured URL, with
    the headers the sensor holds; and it leaves the store alone. *)
Lemma async_update_requests w m :
  requests (m_trace (async_update w m).2)
  = requests (m_trace m)
    ++ [(_url (m_self m), m_store m !!! _headers (m_self m))].
Proof.
  unfold async_update, apply_template. unfold_monad. cbn.
  repeat step_poll;
    rewrite ?requests_app; cbn; by rewrite ?app_nil_r.
Qed.

Lemma async_update_store w m : m_store (async_update w m).2 = m_store m.
Proof.
  unfold async_update, apply_template. unfold_monad. cbn.
  repeat step_poll; done.
Qed.

(** C4. When the fetch succeeds and the configured render rule fails,
    in its evaluation or in the parse of its text, with an error derived
    from [Exception]: the poll returns normally; the state and the
    attributes of the sensor are the normalization of the original
    value; the sensor is available, whatever it was before; and the
    failure shows only as an ERROR log record. *)
Theorem render_failure_falls_back (w : world) (m : machine)
    (resp : response) (data : pyval) (rule : string) (e : exn)
    (text : option string) :
  session_get w (_url (m_self m)) (m_store m !!! _headers (m_self m))
    = Normal resp →
  status resp = 200 →
  json resp = Normal data →
  truthy (_attributes_template (m_self m)) = Some rule →
  render_failure w rule data e text →
  isinstance_Exception e = true →
  ∃ m',
    async_update w m = (Normal tt, m')
    ∧ _state (m_self m') = (normalize_spec data).1
    ∧ _attributes (m_self m') = (normalize_spec data).2
    ∧ _available (m_self m') = true
    ∧ m_trace m'
      = m_trace m
        ++ [request_of m; EvLog DEBUG "Applying attributes_template to data"]
        ++ match text with
           | Some t =>
               [EvLog DEBUG ("Template rendered: " +:+ str_prefix 200 t)]
           | None => []
           end
        ++ [EvLog ERROR ("Error processing attributes_template: " +:+ exn_msg e);
            EvLog DEBUG ("Successfully fetched data from " +:+ _url (m_self m))].
Proof.
  intros Hget Hst Hjs Htpl Hfail Hexn.
  unfold async_update, apply_template, request_of. unfold_monad. cbn.
  rewrite Hget. cbn. rewrite Hst, Hjs, Htpl. cbn.
  destruct Hfail as [e Hr|t e Hr Hl]; rewrite Hr; cbn.
  - rewrite Hexn. cbn. rewrite handle_fallback_commit. cbn.
    eexists. split; [reflexivity|]. cbn. repeat split.
    by rewrite <- !app_assoc.
  - rewrite Hl. cbn. rewrite Hexn. cbn. rewrite handle_fallback_commit. cbn.
    eexists. split; [reflexivity|]. cbn. repeat split.
    by rewrite <- !app_assoc.
Qed.

Lemma render_failure_falls_back_witness :
  ∃ m',
    async_update world_render_fails down_machine_tpl = (Normal tt, m')
    ∧ _state (m_self m') = PScalar (SInt 17)
    ∧ _attributes (m_self m')
      = [("total", PScalar (SInt 17)); ("region", PScalar (SStr "eu"))]
    ∧ _available (m_self m') = true
    ∧ m_trace m'
      = [EvGet "http://api.test/items" {[ "Authorization" := "foo" ]};
         EvLog DEBUG "Applying attributes_template to data";
         EvLog ERROR
           "Error processing attributes_template: UndefinedError: no attribute rows";
         EvLog DEBUG "Successfully fetched data from http://api.test/items"].
Proof.
  apply (render_failure_falls_back world_render_fails down_machine_tpl
           (Response 200 (Normal sample_object)) sample_object
           "{{ value_json.rows }}"
           (Exn TemplateError "UndefinedError: no attribute rows") None).
  - reflexivity.
  - reflexivity.
  - reflexivity.
  - reflexivity.
  - apply EvaluationFailure. reflexivity.
  - reflexivity.
Defined.

(** C5. When the poll fails at the fetch layer (a status other than 200,
    an error or the timeout raised by the request, or an error raised
    while the body of a 200 answer is read as JSON), the poll returns
    normally and the availability flag of the sensor is false; nothing
    else changes: state and attributes are those of the last successful
    cycle, the settings and the store are as before.  One ERROR record
    is logged. *)
Theorem fetch_failure_only_unavailable (w : world) (m : machine) :
  fetch_failure
    (session_get w (_url (m_self m)) (m_store m !!! _headers (m_self m))) →
  ∃ m' msg,
    async_update w m = (Normal tt, m')
    ∧ _available (m_self m') = false
    ∧ _state (m_self m') = _state (m_self m)
    ∧ _attributes (m_self m') = _attributes (m_self m)
    ∧ settings (m_self m') = settings (m_self m)
    ∧ m_store m' = m_store m
    ∧ m_trace m' = m_trace m ++ [request_of m; EvLog ERROR msg].
Proof.
  intros Hf.
  unfold async_update, request_of. unfold_monad. cbn.
  inversion Hf as [resp Hst Heq|e Hexn Heq|resp e Hst Hjs Hexn Heq]; cbn.
  - apply Z.eqb_neq in Hst. rewrite Hst. cbn.
    do 2 eexists. split; [reflexivity|]. cbn. repeat split.
    by rewrite <- !app_assoc.
  - rewrite Hexn. destruct (isinstance_ClientError e); cbn;
      (do 2 eexists; split; [reflexivity|]; cbn; repeat split;
       by rewrite <- !app_assoc).
  - rewrite Hst, Hjs. cbn.
    rewrite Hexn. destruct (isinstance_ClientError e); cbn;
      (do 2 eexists; split; [reflexivity|]; cbn; repeat split;
       by rewrite <- !app_assoc).
Qed.

Lemma fetch_failure_only_unavailable_witness :
  ∃ m' msg,
    async_update world_http_500 up_machine = (Normal tt, m')
    ∧ _available (m_self m') = false
    ∧ _state (m_self m') = PScalar (SInt 4)
    ∧ _attributes (m_self m') = [("count", PScalar (SInt 4))]
    ∧ settings (m_self m') = settings (m_self up_machine)
    ∧ m_store m' = sample_store
    ∧ m_trace m'
      = [] ++ [request_of up_machine; EvLog ERROR msg].
Proof.
  apply (fetch_failure_only_unavailable world_http_500 up_machine).
  apply HttpError. cbn. lia.
Defined.

(** ** The request headers *)

Lemma truthy_nonempty (a : string) : a ≠ "" → truthy (Some a) = Some a.
Proof. by destruct a. Qed.

(** C6, as the code has it. With a static authorization value that is
    not the empty string, the one GET request of a poll carries the
    configured header mapping with its [Authorization] entry set to that
    value, replacing an entry of that name; all other entries are the
    configured ones. *)
Theorem authorization_merged (w : world) (name url a : string)
    (headers : loc) (scan_interval : Z) (attributes_template : option string)
    (h : store) (hd : gmap string string) (tr : list event) :
  h !! headers = Some hd →
  a ≠ "" →
  let r := __init__ name url (Some a) headers scan_interval
             attributes_template h in
  ∃ hs,
    requests (m_trace (async_update w (Machine r.1 r.2 tr)).2)
    = requests tr ++ [(url, hs)]
    ∧ hs = <["Authorization" := a]> hd
    ∧ hs !! "Authorization" = Some a
    ∧ ∀ k, k ≠ "Authorization" → hs !! k = hd !! k.
Proof.
  intros Hhd Ha r. subst r.
  exists (<["Authorization" := a]> hd). split; [|split; [done|split]].
  - rewrite async_update_requests. cbn [m_self m_store m_trace].
    pose proof (init_fields name url (Some a) headers scan_interval
                  attributes_template h) as (-> & _).
    pose proof (init_own_headers name url (Some a) headers scan_interval
                  attributes_template h) as Hown.
    rewrite (truthy_nonempty a Ha), (lookup_total_correct _ _ _ Hhd) in Hown.
    by rewrite (lookup_total_correct _ _ _ Hown).
  - apply lookup_insert_eq.
  - intros k Hk. by apply lookup_insert_ne.
Qed.

Lemma authorization_merged_witness :
  let r := __init__ "JSON API Sensor" "http://api.test/items"
             (Some "Bearer xyz") 0%nat 300 None sample_store in
  ∃ hs,
    requests (m_trace (async_update world_http_500 (Machine r.1 r.2 [])).2)
    = requests [] ++ [("http://api.test/items", hs)]
    ∧ hs = <["Authorization" := "Bearer xyz"]> {[ "Authorization" := "foo" ]}
    ∧ hs !! "Authorization" = Some "Bearer xyz"
    ∧ ∀ k, k ≠ "Authorization"
           → hs !! k
             = ({[ "Authorization" := "foo" ]} : gmap string string) !! k.
Proof.
  apply (authorization_merged world_http_500 "JSON API Sensor"
           "http://api.test/items" "Bearer xyz" 0%nat 300 None sample_store
           {[ "Authorization" := "foo" ]} []).
  - reflexivity.
  - discriminate.
Defined.

(** C6 as stated fails when the static authorization value is the empty
    string: the guard [if self._authorization:] is false, nothing is
    merged, and the configured [Authorization] entry is sent. *)
Lemma empty_authorization_not_merged :
  let r := __init__ "JSON API Sensor" "http://api.test/items"
             (Some "") 0%nat 300 None sample_store in
  let sent :=
    requests (m_trace (async_update world_http_500 (Machine r.1 r.2 [])).2) in
  sent = [("http://api.test/items", {[ "Authorization" := "foo" ]})]
  ∧ sent ≠ [("http://api.test/items",
             <["Authorization" := ""]> {[ "Authorization" := "foo" ]})].
Proof.
  intros r sent.
  assert (sent = [("http://api.test/items", {[ "Authorization" := "foo" ]})])
    as Hsent by (by vm_compute).
  split; [done|].
  rewrite Hsent. intros Heq.
  assert (({[ "Authorization" := "foo" ]} : gmap string string)
            !! "Authorization"
          = (<["Authorization" := ""]> {[ "Authorization" := "foo" ]}
             : gmap string string) !! "Authorization") as Hl
    by congruence.
  rewrite lookup_insert_eq, lookup_singleton_eq in Hl. discriminate.
Qed.

(** ** Sanity checks of the model *)

(** An exception outside [Exception] does go through both [except]
    clauses: the normal return of the theorems above is not built into
    the model. *)
Example cancellation_escapes :
  let w := World (λ _ _, Raised (Exn CancelledError ""))
                 (λ _ _, Normal "[]") (λ _, Normal (PList [])) in
  (async_update w sample_machine).1 = Raised (Exn CancelledError "").
Proof. reflexivity. Qed.

(** A successful cycle without a template, then a failed one: the stale
    state and attributes stay readable. *)
Example stale_read :
  let w_ok := World (λ _ _, Normal (Response 200 (Normal sample_object)))
                    (λ _ _, Normal "[]") (λ _, Normal (PList [])) in
  let m1 := (async_update w_ok sample_machine).2 in
  let m2 := (async_update world_http_500 m1).2 in
  _state (m_self m1) = PScalar (SInt 17)
  ∧ _available (m_self m1) = true
  ∧ _state (m_self m2) = PScalar (SInt 17)
  ∧ _attributes (m_self m2)
    = [("total", PScalar (SInt 17)); ("region", PScalar (SStr "eu"))]
  ∧ _available (m_self m2) = false
  ∧ log_records (m_trace m2)
    = [(DEBUG, "Successfully fetched data from http://api.test/items");
       (ERROR, "Error fetching data: HTTP 500")].
Proof. vm_compute. repeat split. Qed.

(** * Further properties of the sensor *)

(** ** The outcomes of one poll *)

(** X1. A 200 answer with a JSON body, on a sensor whose template is
    absent or the empty string: the poll returns normally; the state
    and the attributes of the sensor are the normalization of the body;
    the sensor is available, whatever it was before; one DEBUG record
    is logged.  The template engine has no part in the outcome. *)
Theorem poll_without_template (w : world) (m : machine) (resp : response)
    (data : pyval) :
  session_get w (_url (m_self m)) (m_store m !!! _headers (m_self m))
    = Normal resp →
  status resp = 200 →
  json resp = Normal data →
  truthy (_attributes_template (m_self m)) = None →
  ∃ m',
    async_update w m = (Normal tt, m')
    ∧ _state (m_self m') = (normalize_spec data).1
    ∧ _attributes (m_self m') = (normalize_spec data).2
    ∧ _available (m_self m') = true
    ∧ m_trace m'
      = m_trace m
        ++ [request_of m;
            EvLog DEBUG ("Successfully fetched data from " +:+ _url (m_self m))].
Proof.
  intros Hget Hst Hjs Htpl.
  unfold async_update, request_of. unfold_monad. cbn.
  rewrite Hget. cbn. rewrite Hst, Hjs, Htpl. cbn.
  rewrite handle_default_commit. cbn.
  eexists. split; [reflexivity|]. cbn. repeat split.
  by rewrite <- !app_assoc.
Qed.

Lemma poll_without_template_witness :
  ∃ m',
    async_update world_render_fails down_machine_empty_rule = (Normal tt, m')
    ∧ _state (m_self m') = PScalar (SInt 17)
    ∧ _attributes (m_self m')
      = [("total", PScalar (SInt 17)); ("region", PScalar (SStr "eu"))]
    ∧ _available (m_self m') = true
    ∧ m_trace m'
      = [EvGet "http://api.test/items" {[ "Authorization" := "foo" ]};
         EvLog DEBUG "Successfully fetched data from http://api.test/items"].
Proof.
  apply (poll_without_template world_render_fails down_machine_empty_rule
           (Response 200 (Normal sample_object)) sample_object);
    reflexivity.
Defined.

(** X2. A 200 answer with a JSON body, on a sensor with a template whose
    text renders and parses: the state and the attributes of the sensor
    are the normalization of the parsed template output, not of the
    body; the sensor is available, whatever it was before; four DEBUG
    records are logged and no ERROR record. *)
Theorem poll_with_rendered_template (w : world) (m : machine)
    (resp : response) (data : pyval) (rule text : string)
    (processed_data : pyval) :
  session_get w (_url (m_self m)) (m_store m !!! _headers (m_self m))
    = Normal resp →
  status resp = 200 →
  json resp = Normal data →
  truthy (_attributes_template (m_self m)) = Some rule →
  template_render w rule data = Normal text →
  json_loads w text = Normal processed_data →
  ∃ m',
    async_update w m = (Normal tt, m')
    ∧ _state (m_self m') = (normalize_spec processed_data).1
    ∧ _attributes (m_self m') = (normalize_spec processed_data).2
    ∧ _available (m_self m') = true
    ∧ m_trace m'
      = m_trace m
        ++ [request_of m;
            EvLog DEBUG "Applying attributes_template to data";
            EvLog DEBUG ("Template rendered: " +:+ str_prefix 200 text);
            EvLog DEBUG "Template processing successful";
            EvLog DEBUG ("Successfully fetched data from " +:+ _url (m_self m))].
Proof.
  intros Hget Hst Hjs Htpl Hr Hl.
  unfold async_update, apply_template, request_of. unfold_monad. cbn.
  rewrite Hget. cbn. rewrite Hst, Hjs, Htpl. cbn.
  rewrite Hr. cbn. rewrite Hl. cbn.
  rewrite handle_processed_commit. cbn.
  eexists. split; [reflexivity|]. cbn. repeat split.
  by rewrite <- !app_assoc.
Qed.

Lemma poll_with_rendered_template_witness :
  ∃ m',
    async_update world_ok down_machine_tpl = (Normal tt, m')
    ∧ _state (m_self m') = PScalar (SInt 3)
    ∧ _attributes (m_self m')
      = [("items", PList [PScalar (SInt 1); PScalar (SInt 2);
                          PScalar (SInt 3)])]
    ∧ _available (m_self m') = true
    ∧ m_trace m'
      = [EvGet "http://api.test/items" {[ "Authorization" := "foo" ]};
         EvLog DEBUG "Applying attributes_template to data";
         EvLog DEBUG "Template rendered: [1, 2, 3]";
         EvLog DEBUG "Template processing successful";
         EvLog DEBUG "Successfully fetched data from http://api.test/items"].
Proof.
  apply (poll_with_rendered_template world_ok down_machine_tpl
           (Response 200 (Normal sample_object)) sample_object
           "{{ value_json.rows }}" "[1, 2, 3]"
           (PList [PScalar (SInt 1); PScalar (SInt 2); PScalar (SInt 3)]));
    reflexivity.
Defined.

(** X3. An answer whose status is not 200 (201 and 204 included) leaves
    the sensor unavailable, with the state and the attributes it had,
    and is logged with its status; the body and the template are not
    looked at. *)
Theorem poll_status_not_200 (w : world) (m : machine) (resp : response) :
  session_get w (_url (m_self m)) (m_store m !!! _headers (m_self m))
    = Normal resp →
  status resp ≠ 200 →
  ∃ m',
    async_update w m = (Normal tt, m')
    ∧ _available (m_self m') = false
    ∧ _state (m_self m') = _state (m_self m)
    ∧ _attributes (m_self m') = _attributes (m_self m)
    ∧ m_trace m'
      = m_trace m
        ++ [request_of m;
            EvLog ERROR ("Error fetching data: HTTP " +:+ pretty (status resp))].
Proof.
  intros Hget Hst. apply Z.eqb_neq in Hst.
  unfold async_update, request_of. unfold_monad. cbn.
  rewrite Hget. cbn. rewrite Hst. cbn.
  eexists. split; [reflexivity|]. cbn. repeat split.
  by rewrite <- !app_assoc.
Qed.

Lemma poll_status_not_200_witness :
  let w := World (λ _ _, Normal (Response 204 (Normal sample_object)))
                 (λ _ _, Normal "[]") (λ _, Normal (PList [])) in
  ∃ m',
    async_update w up_machine = (Normal tt, m')
    ∧ _available (m_self m') = false
    ∧ _state (m_self m') = PScalar (SInt 4)
    ∧ _attributes (m_self m') = [("count", PScalar (SInt 4))]
    ∧ m_trace m'
      = [EvGet "http://api.test/items" {[ "Authorization" := "foo" ]};
         EvLog ERROR "Error fetching data: HTTP 204"].
Proof.
  intros w.
  apply (poll_status_not_200 w up_machine
           (Response 204 (Normal sample_object))).
  - reflexivity.
  - cbn. lia.
Defined.

(** X4. An error derived from [Exception] that the request raises, or
    the reading of a 200 body, leaves the sensor unavailable, with the
    state and the attributes it had, and is logged once: a client error
    with the URL, every other error, the timeout included, as
    unexpected. *)
Theorem poll_fetch_raises (w : world) (m : machine) (e : exn) :
  let answer :=
    session_get w (_url (m_self m)) (m_store m !!! _headers (m_self m)) in
  answer = Raised e
  ∨ (∃ resp, answer = Normal resp ∧ status resp = 200
             ∧ json resp = Raised e) →
  isinstance_Exception e = true →
  ∃ m',
    async_update w m = (Normal tt, m')
    ∧ _available (m_self m') = false
    ∧ _state (m_self m') = _state (m_self m)
    ∧ _attributes (m_self m') = _attributes (m_self m)
    ∧ m_trace m'
      = m_trace m
        ++ [request_of m;
            EvLog ERROR
              (if isinstance_ClientError e
               then "Error fetching data from " +:+ _url (m_self m)
                    +:+ ": " +:+ exn_msg e
               else "Unexpected error: " +:+ exn_msg e)].
Proof.
  intros answer Hraise Hexn. subst answer.
  unfold async_update, request_of. unfold_monad. cbn.
  destruct Hraise as [Hget|(resp & Hget & Hst & Hjs)]; rewrite Hget; cbn.
  - rewrite Hexn. destruct (isinstance_ClientError e); cbn;
      (eexists; split; [reflexivity|]; cbn; repeat split;
       by rewrite <- !app_assoc).
  - rewrite Hst, Hjs. cbn.
    rewrite Hexn. destruct (isinstance_ClientError e); cbn;
      (eexists; split; [reflexivity|]; cbn; repeat split;
       by rewrite <- !app_assoc).
Qed.

Lemma poll_fetch_raises_witness :
  (∃ m',
     async_update world_refused up_machine = (Normal tt, m')
     ∧ _available (m_self m') = false
     ∧ _state (m_self m') = PScalar (SInt 4)
     ∧ _attributes (m_self m') = [("count", PScalar (SInt 4))]
     ∧ m_trace m'
       = [EvGet "http://api.test/items" {[ "Authorization" := "foo" ]};
          EvLog ERROR
            "Error fetching data from http://api.test/items: Cannot connect to host"])
  ∧ (∃ m',
       async_update world_timeout up_machine = (Normal tt, m')
       ∧ _available (m_self m') = false
       ∧ _state (m_self m') = PScalar (SInt 4)
       ∧ _attributes (m_self m') = [("count", PScalar (SInt 4))]
       ∧ m_trace m'
         = [EvGet "http://api.test/items" {[ "Authorization" := "foo" ]};
            EvLog ERROR "Unexpected error: "]).
Proof.
  split.
  - apply (poll_fetch_raises world_refused up_machine
             (Exn ClientError "Cannot connect to host")).
    + left. reflexivity.
    + reflexivity.
  - apply (poll_fetch_raises world_timeout up_machine (Exn TimeoutError "")).
    + left. reflexivity.
    + reflexivity.
Defined.

(** ** What holds of every poll *)

Lemma ClientError_is_Exception e :
  isinstance_ClientError e = true → isinstance_Exception e = true.
Proof.
  unfold isinstance_ClientError, isinstance_Exception.
  by destruct (exn_cls e).
Qed.

Ltac run_poll :=
  unfold async_update, apply_template; unfold_monad; cbn;
  repeat step_poll.

(** A client error is an [Exception]: the case analysis cannot meet the
    first without the second. *)
Ltac absurd_class :=
  match goal with
  | H1 : isinstance_ClientError ?e = true,
    H2 : isinstance_Exception ?e = false |- _ =>
      apply ClientError_is_Exception in H1; congruence
  end.

(** X5. Whatever the collaborators answer, a poll sends exactly one GET
    request, before anything else, to the URL of the sensor and with the
    headers the sensor holds; all that follows in the trace is log
    output.  There is no second attempt. *)
Theorem poll_sends_one_request (w : world) (m : machine) :
  ∃ logs,
    m_trace (async_update w m).2 = m_trace m ++ request_of m :: logs
    ∧ requests logs = [].
Proof.
  unfold request_of. run_poll;
    (eexists; split; [rewrite <- ?app_assoc; cbn; reflexivity|done]).
Qed.

Lemma async_update_settings w m :
  settings (m_self (async_update w m).2) = settings (m_self m).
Proof. run_poll; done. Qed.

(** X6. When an exception leaves [async_update], it is not derived from
    [Exception] and the sensor object is as it was before the poll:
    state, attributes and availability are untouched. *)
Theorem escaped_exception_leaves_sensor (w : world) (m : machine) (e : exn) :
  (async_update w m).1 = Raised e →
  isinstance_Exception e = false
  ∧ m_self (async_update w m).2 = m_self m.
Proof.
  run_poll; intros He; simplify_eq; done.
Qed.

Lemma escaped_exception_leaves_sensor_witness :
  isinstance_Exception (Exn CancelledError "") = false
  ∧ m_self (async_update world_cancelled sample_machine).2
    = m_self sample_machine.
Proof.
  apply (escaped_exception_leaves_sensor world_cancelled sample_machine
           (Exn CancelledError "")).
  reflexivity.
Defined.

(** X7. When the collaborators raise nothing but errors derived from
    [Exception], no poll raises: every failure of the request, of the
    body, of the template or of the parse ends in a normal return. *)
Theorem poll_returns_normally (w : world) (m : machine) :
  raises_only_Exception w →
  (async_update w m).1 = Normal tt.
Proof.
  intros (Hget & Hjson & Hrender & Hloads).
  run_poll; try done;
    repeat match goal with
    | H : session_get w _ _ = Raised _ |- _ => apply Hget in H
    | H1 : session_get w _ _ = Normal ?r, H2 : json ?r = Raised _ |- _ =>
        apply (Hjson _ _ _ _ H1) in H2
    | H : template_render w _ _ = Raised _ |- _ => apply Hrender in H
    | H : json_loads w _ = Raised _ |- _ => apply Hloads in H
    end; congruence.
Qed.

Lemma poll_returns_normally_witness :
  (async_update world_render_fails sample_machine_tpl).1 = Normal tt.
Proof.
  apply (poll_returns_normally world_render_fails sample_machine_tpl).
  repeat split; cbn; intros; simplify_eq; reflexivity.
Defined.

(** X8. After a poll that returns normally the sensor is available
    exactly when the fetch succeeded, that is on a 200 answer with a
    JSON body: a failing template does not make it unavailable, and an
    earlier failure does not stick. *)
Theorem available_iff_fetched (w : world) (m : machine) :
  (async_update w m).1 = Normal tt →
  available (m_self (async_update w m).2)
  = fetched (session_get w (_url (m_self m))
               (m_store m !!! _headers (m_self m))).
Proof.
  unfold fetched. run_poll; intros Hn; simplify_eq; try done; absurd_class.
Qed.

Lemma available_iff_fetched_witness :
  available (m_self (async_update world_render_fails sample_machine_tpl).2)
  = fetched (session_get world_render_fails
               (_url (m_self sample_machine_tpl))
               (m_store sample_machine_tpl
                  !!! _headers (m_self sample_machine_tpl))).
Proof.
  apply (available_iff_fetched world_render_fails sample_machine_tpl).
  reflexivity.
Defined.

(** X9. The scan interval kept by the constructor is not read by the
    poll: two sensors that differ in it alone complete alike, with the
    same trace, state, attributes and availability. *)
Theorem scan_interval_unused (w : world) (s : sensor) (h : store)
    (tr : list event) (z : Z) :
  async_update w (Machine (set_scan_interval z s) h tr)
  = ((async_update w (Machine s h tr)).1,
     with_self (set_scan_interval z) (async_update w (Machine s h tr)).2).
Proof. run_poll; done. Qed.

(** ** Sequences of polls *)

Lemma polls_snoc ws w m :
  polls (ws ++ [w]) m = (async_update w (polls ws m)).2.
Proof. revert m. induction ws as [|w' ws IH]; intros m; cbn; [done|apply IH]. Qed.

Lemma polls_settings ws m : settings (m_self (polls ws m)) = settings (m_self m).
Proof.
  revert m. induction ws as [|w ws IH]; intros m; cbn; [done|].
  by rewrite IH, async_update_settings.
Qed.

Lemma polls_store ws m : m_store (polls ws m) = m_store m.
Proof.
  revert m. induction ws as [|w ws IH]; intros m; cbn; [done|].
  by rewrite IH, async_update_store.
Qed.

(** X10. Polling never changes what the constructor has set: after any
    number of polls, with any answers, the name read by the host, the
    URL, the authorization value, the reference to the headers, the
    scan interval and the template are those of the start, and every
    header dictionary of the store is unchanged. *)
Theorem polls_keep_settings (ws : list world) (m : machine) :
  name (m_self (polls ws m)) = name (m_self m)
  ∧ settings (m_self (polls ws m)) = settings (m_self m)
  ∧ m_store (polls ws m) = m_store m.
Proof.
  pose proof (polls_settings ws m) as Hs.
  split; [|split; [done|apply polls_store]].
  unfold settings in Hs. unfold name. congruence.
Qed.

(** X11. Every poll of a sensor sends the same request: after [n] polls
    the trace holds [n] more GET requests, all to the URL and with the
    headers fixed at construction, whatever the polls returned. *)
Theorem polls_repeat_request (ws : list world) (m : machine) :
  requests (m_trace (polls ws m))
  = requests (m_trace m)
    ++ replicate (length ws)
         (_url (m_self m), m_store m !!! _headers (m_self m)).
Proof.
  revert m. induction ws as [|w ws IH]; intros m; cbn.
  - by rewrite app_nil_r.
  - rewrite IH, async_update_requests, async_update_store, <- app_assoc.
    pose proof (async_update_settings w m) as Hs. unfold settings in Hs.
    cbn. congruence.
Qed.

Lemma async_update_coherent w m :
  coherent (m_self m) → coherent (m_self (async_update w m).2).
Proof.
  unfold coherent, state, extra_state_attributes.
  run_poll; intros Hc; try done;
    right; eexists; symmetry; apply surjective_pairing.
Qed.

Lemma polls_coherent ws m :
  coherent (m_self m) → coherent (m_self (polls ws m)).
Proof.
  revert m. induction ws as [|w ws IH]; intros m Hc; cbn; [done|].
  by apply IH, async_update_coherent.
Qed.

(** X12. State and attributes are replaced together.  From a
    newly built sensor and after any number of polls, with any answers,
    the pair read by the host is the initial one, [None] and the empty
    mapping, or the normalization of one JSON value: never the state of
    one payload with the attributes of another. *)
Theorem state_and_attributes_belong_together (nm url : string)
    (authorization : option string) (headers : loc) (scan_interval : Z)
    (attributes_template : option string) (h : store) (tr : list event)
    (ws : list world) :
  let r := __init__ nm url authorization headers scan_interval
             attributes_template h in
  coherent (m_self (polls ws (Machine r.1 r.2 tr))).
Proof.
  intros r. apply polls_coherent. left. subst r. cbn [m_self].
  unfold state, extra_state_attributes.
  pose proof (init_fields nm url authorization headers scan_interval
                attributes_template h) as (_ & -> & -> & _).
  done.
Qed.

Lemma stale_step w m :
  fetch_failure
    (session_get w (_url (m_self m)) (m_store m !!! _headers (m_self m))) →
  m_self (async_update w m).2 = set_available false (m_self m)
  ∧ m_store (async_update w m).2 = m_store m.
Proof.
  intros Hf. unfold async_update. unfold_monad. cbn.
  inversion Hf as [resp Hst Heq|e Hexn Heq|resp e Hst Hjs Hexn Heq]; cbn.
  - apply Z.eqb_neq in Hst. by rewrite Hst.
  - rewrite Hexn. by destruct (isinstance_ClientError e).
  - rewrite Hst, Hjs. cbn. rewrite Hexn.
    by destruct (isinstance_ClientError e).
Qed.

(** X13. Stale reads last: through any number of polls in a row that
    fail at the fetch layer, the host keeps reading the state and the
    attributes of before, and after the first of them the sensor is
    unavailable. *)
Theorem failures_keep_stale_state (ws : list world) (m : machine) :
  Forall (λ w, fetch_failure
                 (session_get w (_url (m_self m))
                    (m_store m !!! _headers (m_self m)))) ws →
  state (m_self (polls ws m)) = state (m_self m)
  ∧ extra_state_attributes (m_self (polls ws m))
    = extra_state_attributes (m_self m)
  ∧ (ws ≠ [] → available (m_self (polls ws m)) = false).
Proof.
  induction ws as [|w ws IH] using rev_ind; intros Hall; [done|].
  apply Forall_app in Hall as [Hws Hw]. rewrite Forall_singleton in Hw.
  destruct (IH Hws) as (Hst & Hat & _).
  rewrite polls_snoc.
  pose proof (polls_settings ws m) as Hs. unfold settings in Hs.
  assert (_url (m_self (polls ws m)) = _url (m_self m)) as Hu by congruence.
  assert (_headers (m_self (polls ws m)) = _headers (m_self m)) as Hhd
    by congruence.
  destruct (stale_step w (polls ws m)) as [-> _].
  { by rewrite polls_store, Hu, Hhd. }
  done.
Qed.

Lemma failures_keep_stale_state_witness :
  let m := (async_update world_ok sample_machine).2 in
  let ws := [world_http_500; world_refused] in
  state (m_self (polls ws m)) = state (m_self m)
  ∧ extra_state_attributes (m_self (polls ws m))
    = extra_state_attributes (m_self m)
  ∧ (ws ≠ [] → available (m_self (polls ws m)) = false).
Proof.
  intros m ws. apply (failures_keep_stale_state ws m).
  apply Forall_cons_2; [|apply Forall_cons_2; [|apply Forall_nil_2]].
  - apply HttpError. cbn. lia.
  - apply TransportError. reflexivity.
Defined.

(** ** Sensors built from one header dictionary *)

(** X14. Two sensors built from the same header dictionary do not see
    each other's authorization: each sends the configured headers with
    its own [Authorization] entry, and the dictionary they were built
    from is still the configured one. *)
Theorem sensors_do_not_share_headers (n1 u1 n2 u2 : string)
    (a1 a2 : option string) (si1 si2 : Z) (t1 t2 : option string)
    (headers : loc) (h : store) (hd : gmap string string)
    (w : world) (tr : list event) :
  h !! headers = Some hd →
  let r1 := __init__ n1 u1 a1 headers si1 t1 h in
  let r2 := __init__ n2 u2 a2 headers si2 t2 r1.2 in
  r2.2 !! headers = Some hd
  ∧ requests (m_trace (async_update w (Machine r1.1 r2.2 tr)).2)
    = requests tr ++ [(u1, merged a1 hd)]
  ∧ requests (m_trace (async_update w (Machine r2.1 r2.2 tr)).2)
    = requests tr ++ [(u2, merged a2 hd)].
Proof.
  intros Hhd r1 r2.
  assert (r1.2 !! headers = Some hd) as H1.
  { subst r1. rewrite init_frame; [done|by eexists]. }
  assert (r1.2 !! _headers r1.1 = Some (merged a1 hd)) as Hown1.
  { subst r1. rewrite init_own_headers.
    by rewrite (lookup_total_correct _ _ _ Hhd). }
  assert (r2.2 !! _headers r2.1 = Some (merged a2 hd)) as Hown2.
  { subst r2. rewrite init_own_headers.
    by rewrite (lookup_total_correct _ _ _ H1). }
  assert (r2.2 !! _headers r1.1 = Some (merged a1 hd)) as Hown12.
  { subst r2. rewrite init_frame; [done|by eexists]. }
  split; [|split].
  - subst r2. rewrite init_frame; [done|by eexists].
  - rewrite async_update_requests. cbn [m_self m_store m_trace].
    rewrite (lookup_total_correct _ _ _ Hown12).
    subst r1.
    by pose proof (init_fields n1 u1 a1 headers si1 t1 h) as (-> & _).
  - rewrite async_update_requests. cbn [m_self m_store m_trace].
    rewrite (lookup_total_correct _ _ _ Hown2).
    subst r2.
    by pose proof (init_fields n2 u2 a2 headers si2 t2 r1.2) as (-> & _).
Qed.

Lemma sensors_do_not_share_headers_witness :
  let r1 := __init__ "a" "http://api.test/a" (Some "Bearer one") 0%nat 60
              None sample_store in
  let r2 := __init__ "b" "http://api.test/b" (Some "Bearer two") 0%nat 60
              None r1.2 in
  r2.2 !! 0%nat = Some {[ "Authorization" := "foo" ]}
  ∧ requests (m_trace (async_update world_ok (Machine r1.1 r2.2 [])).2)
    = requests []
      ++ [("http://api.test/a",
           merged (Some "Bearer one") {[ "Authorization" := "foo" ]})]
  ∧ requests (m_trace (async_update world_ok (Machine r2.1 r2.2 [])).2)
    = requests []
      ++ [("http://api.test/b",
           merged (Some "Bearer two") {[ "Authorization" := "foo" ]})].
Proof.
  apply (sensors_do_not_share_headers "a" "http://api.test/a"
           "b" "http://api.test/b" (Some "Bearer one") (Some "Bearer two")
           60 60 None None 0%nat sample_store
           {[ "Authorization" := "foo" ]} world_ok []).
  reflexivity.
Defined.

(** ** Setting up the platform *)

Lemma dict_new_frame (h : store) (l : loc) :
  (dict_new h).2 !!! l = h !!! l.
Proof.
  unfold dict_new. cbn.
  destruct (decide (fresh (dom h) = l)) as [<-|Hne].
  - rewrite lookup_total_insert_eq.
    assert (h !! fresh (dom h) = None) as Hnone
      by apply not_elem_of_dom, is_fresh.
    rewrite lookup_total_alt, Hnone. done.
  - by rewrite lookup_total_insert_ne.
Qed.

Lemma dict_new_old (h : store) (l : loc) :
  is_Some (h !! l) → (dict_new h).2 !! l = h !! l.
Proof.
  intros Hl. unfold dict_new. cbn. apply lookup_insert_ne.
  intros <-. apply (is_fresh (dom h)). by apply elem_of_dom.
Qed.

Lemma dict_new_empty (h : store) : (dict_new h).2 !!! (dict_new h).1 = ∅.
Proof. unfold dict_new. cbn. apply lookup_total_insert_eq. Qed.

Lemma setup_outcome (CONF_NAME CONF_URL : string) (cfg : config)
    (p : platform) (nm url : string) :
  conf_name cfg = Some nm →
  conf_url cfg = Some url →
  ∃ (s : sensor) (h' : store),
    async_setup_platform CONF_NAME CONF_URL cfg p
    = (Normal tt, Platform h' (p_added p ++ [([s], true)]))
    ∧ name s = nm ∧ _url s = url
    ∧ _scan_interval s = default 300 (conf_scan_interval cfg)
    ∧ _attributes_template s = conf_attributes_template cfg
    ∧ state s = PScalar SNone
    ∧ extra_state_attributes s = []
    ∧ available s = true
    ∧ h' !! _headers s
      = Some (merged (conf_authorization cfg)
                (match conf_headers cfg with
                 | Some l => p_store p !!! l
                 | None => ∅
                 end))
    ∧ (∀ l, is_Some (p_store p !! l) → h' !! l = p_store p !! l).
Proof.
  intros Hn Hu. unfold async_setup_platform. rewrite Hn, Hu.
  destruct (dict_new (p_store p)) as [empty h1] eqn:Hnew.
  set (hs := default empty (conf_headers cfg)).
  set (si := default DEFAULT_SCAN_INTERVAL (conf_scan_interval cfg)).
  pose proof (init_own_headers nm url (conf_authorization cfg) hs si
                (conf_attributes_template cfg) h1) as Hown.
  pose proof (init_frame nm url (conf_authorization cfg) hs si
                (conf_attributes_template cfg) h1) as Hframe.
  assert (__init__ nm url (conf_authorization cfg) hs si
            (conf_attributes_template cfg) h1
          = ((__init__ nm url (conf_authorization cfg) hs si
                (conf_attributes_template cfg) h1).1,
             (__init__ nm url (conf_authorization cfg) hs si
                (conf_attributes_template cfg) h1).2)) as Hpair
    by apply surjective_pairing.
  destruct (__init__ nm url (conf_authorization cfg) hs si
              (conf_attributes_template cfg) h1) as [s h'] eqn:Hinit.
  cbn [fst snd] in *. clear Hpair.
  exists s, h'. split; [done|].
  assert (s = Sensor nm url (conf_authorization cfg) (_headers s)
                (PScalar SNone) [] true si (conf_attributes_template cfg))
    as Hs.
  { unfold __init__, dict_copy in Hinit. cbn in Hinit.
    destruct (truthy (conf_authorization cfg)); by simplify_eq. }
  assert (h1 = (dict_new (p_store p)).2) as Hh1 by by rewrite Hnew.
  assert (empty = (dict_new (p_store p)).1) as Hempty by by rewrite Hnew.
  repeat split; try (rewrite Hs; done).
  - rewrite Hown. unfold merged. subst hs h1 empty.
    destruct (conf_headers cfg) as [l|]; cbn [default from_option id].
    + by rewrite dict_new_frame.
    + by rewrite dict_new_empty.
  - intros l Hl. rewrite Hframe.
    + subst h1. by apply dict_new_old.
    + subst h1. rewrite dict_new_old; done.
Qed.

(** X16. With a name and a URL the set-up hands exactly one sensor to
    the host, asking for an update before it is added.  The sensor has
    the configured name, URL and template, a scan interval of 300
    seconds unless one is configured, no state, no attributes, and is
    available.  Its headers are the configured ones, or none when no
    mapping is configured, with its [Authorization] entry; the
    dictionaries of the store are left as they were. *)
Theorem setup_adds_one_sensor (CONF_NAME CONF_URL : string) (cfg : config)
    (p : platform) (nm url : string) :
  conf_name cfg = Some nm →
  conf_url cfg = Some url →
  ∃ (s : sensor) (h' : store),
    async_setup_platform CONF_NAME CONF_URL cfg p
    = (Normal tt, Platform h' (p_added p ++ [([s], true)]))
    ∧ name s = nm ∧ _url s = url
    ∧ _scan_interval s = default 300 (conf_scan_interval cfg)
    ∧ _attributes_template s = conf_attributes_template cfg
    ∧ state s = PScalar SNone
    ∧ extra_state_attributes s = []
    ∧ available s = true
    ∧ h' !! _headers s
      = Some (merged (conf_authorization cfg)
                (match conf_headers cfg with
                 | Some l => p_store p !!! l
                 | None => ∅
                 end))
    ∧ (∀ l, is_Some (p_store p !! l) → h' !! l = p_store p !! l).
Proof. apply setup_outcome. Qed.

Lemma setup_adds_one_sensor_witness :
  let cfg := Config (Some "JSON API Sensor") (Some "http://api.test/items")
               (Some "Bearer xyz") None None None in
  let p := Platform sample_store [] in
  ∃ (s : sensor) (h' : store),
    async_setup_platform "name" "url" cfg p
    = (Normal tt, Platform h' (p_added p ++ [([s], true)]))
    ∧ name s = "JSON API Sensor" ∧ _url s = "http://api.test/items"
    ∧ _scan_interval s = default 300 (conf_scan_interval cfg)
    ∧ _attributes_template s = conf_attributes_template cfg
    ∧ state s = PScalar SNone
    ∧ extra_state_attributes s = []
    ∧ available s = true
    ∧ h' !! _headers s
      = Some (merged (conf_authorization cfg)
                (match conf_headers cfg with
                 | Some l => p_store p !!! l
                 | None => ∅
                 end))
    ∧ (∀ l, is_Some (p_store p !! l) → h' !! l = p_store p !! l).
Proof.
  intros cfg p.
  apply (setup_adds_one_sensor "name" "url" cfg p "JSON API Sensor"
           "http://api.test/items"); reflexivity.
Defined.

(** X17. The first poll of a sensor that the set-up has added goes to
    the configured URL with the configured headers, or none when no
    mapping is configured, and the [Authorization] entry of a truthy
    authorization value. *)
Theorem first_poll_after_setup (CONF_NAME CONF_URL : string) (cfg : config)
    (p : platform) (nm url : string) (w : world) (tr : list event) :
  conf_name cfg = Some nm →
  conf_url cfg = Some url →
  ∃ (s : sensor) (h' : store),
    async_setup_platform CONF_NAME CONF_URL cfg p
    = (Normal tt, Platform h' (p_added p ++ [([s], true)]))
    ∧ requests (m_trace (async_update w (Machine s h' tr)).2)
      = requests tr
        ++ [(url,
             merged (conf_authorization cfg)
               (match conf_headers cfg with
                | Some l => p_store p !!! l
                | None => ∅
                end))].
Proof.
  intros Hn Hu.
  destruct (setup_outcome CONF_NAME CONF_URL cfg p nm url Hn Hu)
    as (s & h' & Hsetup & _ & Hurl & _ & _ & _ & _ & _ & Hown & _).
  exists s, h'. split; [done|].
  rewrite async_update_requests. cbn [m_self m_store m_trace].
  by rewrite Hurl, (lookup_total_correct _ _ _ Hown).
Qed.

Lemma first_poll_after_setup_witness :
  let cfg := Config (Some "JSON API Sensor") (Some "http://api.test/items")
               (Some "Bearer xyz") (Some 0%nat) (Some 60) None in
  let p := Platform sample_store [] in
  ∃ (s : sensor) (h' : store),
    async_setup_platform "name" "url" cfg p
    = (Normal tt, Platform h' (p_added p ++ [([s], true)]))
    ∧ requests (m_trace (async_update world_ok (Machine s h' [])).2)
      = requests []
        ++ [("http://api.test/items",
             merged (conf_authorization cfg)
               (match conf_headers cfg with
                | Some l => p_store p !!! l
                | None => ∅
                end))].
Proof.
  intros cfg p.
  apply (first_poll_after_setup "name" "url" cfg p "JSON API Sensor"
           "http://api.test/items" world_ok []); reflexivity.
Defined.

(** ** Objects and the order of their keys *)

Lemma dict_find_Permutation (k : string) (d d' : pydict) :
  NoDup d.*1 → d ≡ₚ d' → dict_find k d = dict_find k d'.
Proof.
  intros Hnd Hp. induction Hp as [|[k1 v1] d d' Hp IH
                                  |[k1 v1] [k2 v2] d|d d' d'' Hp1 IH1 Hp2 IH2].
  - done.
  - cbn. destruct (String.eqb k k1); [done|].
    apply IH. by apply NoDup_cons in Hnd as [_ ?].
  - cbn. destruct (String.eqb_spec k k2) as [->|]; [|done].
    destruct (String.eqb_spec k2 k1) as [->|]; [|done].
    cbn in Hnd. apply NoDup_cons in Hnd as [Hin _].
    exfalso. apply Hin. left.
  - rewrite IH1 by done. apply IH2. by rewrite <- Hp1.
Qed.

(** X18. The primary value of an object does not depend on the order of
    its keys: two objects with the same entries in different orders,
    keys being unique, get the same state, and each keeps its own order
    in the attributes. *)
Theorem state_ignores_key_order (d d' : pydict) (m : machine) :
  NoDup d.*1 → d ≡ₚ d' →
  state (m_self (handle_default (PDict d) m).2)
  = state (m_self (handle_default (PDict d') m).2)
  ∧ extra_state_attributes (m_self (handle_default (PDict d) m).2) = d
  ∧ extra_state_attributes (m_self (handle_default (PDict d') m).2) = d'.
Proof.
  intros Hnd Hp. rewrite !handle_default_commit.
  unfold state, extra_state_attributes. cbn.
  by rewrite !(dict_find_Permutation _ d d' Hnd Hp).
Qed.

Lemma state_ignores_key_order_witness :
  let d := [("total", PScalar (SInt 17)); ("count", PScalar (SInt 3))] in
  let d' := [("count", PScalar (SInt 3)); ("total", PScalar (SInt 17))] in
  state (m_self (handle_default (PDict d) sample_machine).2)
  = state (m_self (handle_default (PDict d') sample_machine).2)
  ∧ extra_state_attributes (m_self (handle_default (PDict d) sample_machine).2)
    = d
  ∧ extra_state_attributes (m_self (handle_default (PDict d') sample_machine).2)
    = d'.
Proof.
  intros d d'. apply (state_ignores_key_order d d' sample_machine).
  - apply NoDup_cons_2; [|apply NoDup_cons_2; [|apply NoDup_nil_2]].
    + intros Hin. apply list_elem_of_singleton in Hin. discriminate.
    + apply not_elem_of_nil.
  - apply Permutation_swap.
Defined.

(** ** The rendered text in the log *)

Lemma str_prefix_codepoints (n : nat) (s : string) :
  codepoints (str_prefix n s) = Nat.min n (codepoints s).
Proof.
  revert n. induction s as [|c s IH]; intros n; cbn.
  - by destruct n.
  - destruct (is_continuation c) eqn:Hc.
    + cbn. by rewrite Hc, IH.
    + destruct n as [|n]; cbn; [done|]. by rewrite Hc, IH.
Qed.

(** The cut falls between two code points. *)
Lemma str_prefix_split (n : nat) (s : string) :
  ∃ tail,
    s = str_prefix n s +:+ tail
    ∧ match tail with
      | EmptyString => True
      | String c _ => is_continuation c = false
      end.
Proof.
  revert n. induction s as [|c s IH]; intros n; cbn.
  - by exists "".
  - destruct (is_continuation c) eqn:Hc.
    + destruct (IH n) as (tail & Heq & Hclean).
      exists tail. split; [|done].
      change (String c s = String c (str_prefix n s +:+ tail)).
      by f_equal.
    + destruct n as [|n].
      * exists (String c s). by split.
      * destruct (IH n) as (tail & Heq & Hclean).
        exists tail. split; [|done].
        change (String c s = String c (str_prefix n s +:+ tail)).
        by f_equal.
Qed.

Lemma apply_template_trace w rule data text m :
  template_render w rule data = Normal text →
  ∃ rest,
    m_trace (apply_template w rule data m).2
    = m_trace m
      ++ [EvLog DEBUG "Applying attributes_template to data";
          EvLog DEBUG ("Template rendered: " +:+ str_prefix 200 text)]
      ++ rest.
Proof.
  intros Hr. unfold apply_template. unfold_monad. cbn. rewrite Hr. cbn.
  repeat step_poll; (eexists; rewrite <- ?app_assoc; cbn; reflexivity).
Qed.

(** X19. The DEBUG record of a rendered template shows the beginning of
    the rendered text, cut after 200 code points and between two code
    points: the whole text when it has no more than 200, its first 200
    otherwise, however many bytes they take.  The record is written
    whether or not the text then parses as JSON. *)
Theorem rendered_text_logged_truncated (w : world) (rule : string)
    (data : pyval) (text : string) (m : machine) :
  template_render w rule data = Normal text →
  ∃ shown tail rest,
    m_trace (apply_template w rule data m).2
    = m_trace m
      ++ [EvLog DEBUG "Applying attributes_template to data";
          EvLog DEBUG ("Template rendered: " +:+ shown)]
      ++ rest
    ∧ text = shown +:+ tail
    ∧ codepoints shown = Nat.min 200 (codepoints text)
    ∧ match tail with
      | EmptyString => True
      | String c _ => is_continuation c = false
      end.
Proof.
  intros Hr.
  destruct (apply_template_trace w rule data text m Hr) as [rest Htr].
  destruct (str_prefix_split 200 text) as (tail & Heq & Hclean).
  exists (str_prefix 200 text), tail, rest.
  split; [done|]. split; [done|]. split; [|done].
  apply str_prefix_codepoints.
Qed.

Lemma rendered_text_logged_truncated_witness :
  ∃ shown tail rest,
    m_trace (apply_template world_euro "{{ value_json.price }}" sample_object
               down_machine_tpl).2
    = m_trace down_machine_tpl
      ++ [EvLog DEBUG "Applying attributes_template to data";
          EvLog DEBUG ("Template rendered: " +:+ shown)]
      ++ rest
    ∧ euros 250 = shown +:+ tail
    ∧ codepoints shown = Nat.min 200 (codepoints (euros 250))
    ∧ match tail with
      | EmptyString => True
      | String c _ => is_continuation c = false
      end.
Proof.
  apply (rendered_text_logged_truncated world_euro "{{ value_json.price }}"
           sample_object (euros 250) down_machine_tpl).
  reflexivity.
Defined.

(** On 250 euro signs, three bytes each, the record shows the first 200
    signs in 600 bytes. *)
Example euros_cut :
  str_prefix 200 (euros 250) = euros 200
  ∧ String.length (euros 200) = 600%nat
  ∧ codepoints (euros 250) = 250%nat
  ∧ str_prefix 2 "a€b" = "a€".
Proof. vm_compute. repeat split. Qed.

(** ** Polling again *)

(** Use the answers already met by the case analysis. *)
Ltac reuse_answers :=
  repeat match goal with
         | H : ?x = _ |- context [?x] => rewrite H
         end.

(** X20. A poll overwrites and does not accumulate: polling twice with
    the same answers leaves the sensor object as polling once does. *)
Theorem poll_twice_same_sensor (w : world) (m : machine) :
  m_self (polls [w; w] m) = m_self (polls [w] m).
Proof.
  cbn [polls].
  unfold async_update at 2. unfold apply_template. unfold_monad. cbn.
  repeat step_poll;
    unfold async_update, apply_template; unfold_monad; cbn;
    reuse_answers; cbn;
    rewrite ?handle_default_commit, ?handle_processed_commit,
      ?handle_fallback_commit; cbn; reuse_answers; cbn;
    rewrite ?handle_default_commit, ?handle_processed_commit,
      ?handle_fallback_commit; cbn;
    done.
Qed.
